(** * MamoDataset: the dataset adapter of the MAMO framework

    A shallow embedding of [dataloader/mamo_dataset.py] and the properties
    of its three methods: the constructor, the length protocol and the
    indexing protocol.

    Modelling choices.
    - An nD numpy array / torch tensor is seen along its first axis, as the
      list of its samples; the sample type is a parameter.
    - Python integers are unbounded, so lengths and indices live in [Z];
      the host library unpacks an index into 64 bits and raises
      [ValueError] for one that does not fit.
    - [None] for an optional argument or attribute is [option]'s [None].
    - A raised exception is the [Raise] branch of [result].
    - A method is a function from the receiver's state to an outcome and
      the receiver's state after the call, so that "the call left the
      object as it was" is a statement about the model.
    - [__getitem__] is embedded at an integer index, and a second time,
      as [__getitem__index], at an index that is an integer or a slice;
      the two agree on integers ([getitem_index_int]). *)

From Stdlib Require Import ZArith List String Bool Lia.
Import ListNotations.
Open Scope Z_scope.

(** ** Exceptions and outcomes *)

Inductive exn : Type :=
| ValueError (msg : string)
| IndexError.

Inductive result (A : Type) : Type :=
| Ok (a : A)
| Raise (e : exn).

Arguments Ok {A} a.
Arguments Raise {A} e.

(** ** The host containers: numpy arrays and torch tensors *)

Section Containers.

Variable sample : Type.

Definition ndarray : Type := list sample.
Definition tensor : Type := list sample.

(** [torch.from_numpy]: same samples, same order. *)
Definition from_numpy (a : ndarray) : tensor := a.

(** Python's [len] on an array or a tensor: the size of the first axis. *)
Definition len (t : list sample) : Z := Z.of_nat (List.length t).

(** The host unpacks an integer index into a signed 64-bit integer. *)
Definition int64 (z : Z) : bool := (- 2 ^ 63 <=? z) && (z <? 2 ^ 63).

Definition index_overflow_msg : string := "Overflow when unpacking long".

(** [t[index]] for an integer [index] on a tensor with [n] samples.  An
    index that does not fit in 64 bits raises [ValueError] before any
    bound is looked at.  Otherwise an index in [-n, n) selects a sample, a
    negative one counting from the end, and any other index raises
    [IndexError].  The size of a tensor always fits in 64 bits; the test
    on [n] keeps the definition total on lists no tensor can hold, where
    only the bounds are tested. *)
Definition tensor_getitem (t : tensor) (index : Z) : result sample :=
  let n := len t in
  if int64 n && negb (int64 index) then
    Raise (ValueError index_overflow_msg)
  else if (index <? - n) || (n <=? index) then Raise IndexError
  else
    let pos := if index <? 0 then index + n else index in
    match nth_error t (Z.to_nat pos) with
    | Some x => Ok x
    | None => Raise IndexError
    end.

End Containers.

Arguments from_numpy {sample} a.
Arguments len {sample} t.
Arguments tensor_getitem {sample} t index.

(** ** The class *)

Section Class.

Variable sample : Type.

Record MamoDataset : Type := mkMamoDataset {
  _input_data : tensor sample;
  _output_data : option (tensor sample)
}.

(** Methods read and (possibly) write the receiver, and may raise. *)
Definition method (A : Type) : Type := MamoDataset -> result A * MamoDataset.

Definition ret {A : Type} (a : A) : method A :=
  fun self => (Ok a, self).

Definition bind {A B : Type} (m : method A) (f : A -> method B) : method B :=
  fun self =>
    match m self with
    | (Ok a, self') => f a self'
    | (Raise e, self') => (Raise e, self')
    end.

(** Reading an attribute of [self]. *)
Definition attr {A : Type} (field : MamoDataset -> A) : method A :=
  fun self => (Ok (field self), self).

(** A call into the host library that does not touch [self]. *)
Definition lift {A : Type} (r : result A) : method A :=
  fun self => (r, self).

Notation "x <- m ;; k" := (bind m (fun x => k))
  (at level 61, m at next level, right associativity).

(** The two messages of the constructor's [ValueError]s. *)
Definition input_none_msg : string :=
  "The input data is None, please give a valid input data.".
Definition length_mismatch_msg : string :=
  "The length of the input data must match the length of the output data!".

(** [MamoDataset.__init__(self, input_data, output_data=None)] *)
Definition __init__ (input_data output_data : option (ndarray sample))
  : result MamoDataset :=
  match input_data with
  | None =>
      Raise (ValueError input_none_msg)
  | Some input_data =>
      let input_t := from_numpy input_data in
      match output_data with
      | Some output_data =>
          if negb (len input_data =? len output_data) then
            Raise (ValueError length_mismatch_msg)
          else
            Ok {| _input_data := input_t;
                  _output_data := Some (from_numpy output_data) |}
      | None =>
          Ok {| _input_data := input_t; _output_data := None |}
      end
  end.

(** [MamoDataset.__len__(self)] *)
Definition __len__ : method Z :=
  t <- attr _input_data ;;
  ret (len t).

(** [MamoDataset.__getitem__(self, index)] *)
Definition __getitem__ (index : Z) : method (sample * sample) :=
  t <- attr _input_data ;;
  x <- lift (tensor_getitem t index) ;;
  o <- attr _output_data ;;
  match o with
  | None => ret (x, x)
  | Some o =>
      y <- lift (tensor_getitem o index) ;;
      ret (x, y)
  end.

(** *** The life of a table: any finite sequence of calls *)

Inductive call : Type :=
| CallLen
| CallGetitem (index : Z).

Definition exec (c : call) (self : MamoDataset) : MamoDataset :=
  match c with
  | CallLen => snd (__len__ self)
  | CallGetitem index => snd (__getitem__ index self)
  end.

Definition exec_all (cs : list call) (self : MamoDataset) : MamoDataset :=
  fold_left (fun s c => exec c s) cs self.

(** The documented invariant: stored outputs are as long as the inputs. *)
Definition lengths_match (self : MamoDataset) : Prop :=
  match _output_data self with
  | Some o => len o = len (_input_data self)
  | None => True
  end.

End Class.

Arguments mkMamoDataset {sample} _ _.
Arguments _input_data {sample} _.
Arguments _output_data {sample} _.
Arguments __init__ {sample} input_data output_data.
Arguments __len__ {sample} _.
Arguments __getitem__ {sample} index _.
Arguments exec {sample} c self.
Arguments exec_all {sample} cs self.
Arguments lengths_match {sample} self.

(** ** Indexing with a slice

    The docstring of [__getitem__] allows [index] to be an integer or a
    slice.  A slice [start:stop:step] on the first axis of a tensor with
    [n] samples: [step] defaults to [1] and must be positive (otherwise
    [ValueError]); a negative bound counts from the end; [start] is then
    clamped into [0, n] and [stop] into [start, n]; the selected positions
    are [start], [start + step], ... below [stop].  No bound is ever out of
    range.  The host multiplies the row stride by [step] in 64-bit
    arithmetic, which can fail for a step far beyond the size of the
    tensor.  The definition below describes steps up to that size (beyond
    it, it gives the rows the host selects when that arithmetic succeeds),
    and the property of slices with an arbitrary step is stated for such
    steps. *)

Record slice : Type := mkSlice {
  start : option Z;
  stop : option Z;
  step : option Z
}.

Inductive index : Type :=
| IntIndex (i : Z)
| SliceIndex (s : slice).

Definition step_zero_msg : string := "slice step cannot be zero".
Definition step_negative_msg : string := "step must be greater than zero".

Definition slice_start (n : Z) (start : option Z) : Z :=
  match start with
  | None => 0
  | Some a =>
      let a := if a <? 0 then a + n else a in
      if a <? 0 then 0 else if n <=? a then n else a
  end.

Definition slice_stop (n first : Z) (stop : option Z) : Z :=
  match stop with
  | None => n
  | Some b =>
      let b := if b <? 0 then b + n else b in
      if b <? first then first else if n <=? b then n else b
  end.

Definition slice_count (first last k : Z) : nat :=
  Z.to_nat ((last - first + k - 1) / k).

Section Slicing.

Variable sample : Type.

(** What indexing returns: one sample for an integer, rows for a slice. *)
Inductive item : Type :=
| Sample (x : sample)
| Rows (r : tensor sample).

(** The samples at positions [first], [first + k], ... ([count] of them). *)
Definition pick (t : tensor sample) (first k : Z) (count : nat) : tensor sample :=
  flat_map
    (fun j =>
       match nth_error t (Z.to_nat (first + Z.of_nat j * k)) with
       | Some x => [x]
       | None => []
       end)
    (seq 0 count).

Definition tensor_getslice (t : tensor sample) (s : slice) : result (tensor sample) :=
  let k := match step s with Some k => k | None => 1 end in
  if k =? 0 then Raise (ValueError step_zero_msg)
  else if k <? 0 then Raise (ValueError step_negative_msg)
  else
    let n := len t in
    let first := slice_start n (start s) in
    let last := slice_stop n first (stop s) in
    Ok (pick t first k (slice_count first last k)).

(** [t[index]] for either kind of index. *)
Definition tensor_index (t : tensor sample) (idx : index) : result item :=
  match idx with
  | IntIndex i =>
      match tensor_getitem t i with
      | Ok x => Ok (Sample x)
      | Raise e => Raise e
      end
  | SliceIndex s =>
      match tensor_getslice t s with
      | Ok r => Ok (Rows r)
      | Raise e => Raise e
      end
  end.

Notation "x <- m ;; k" := (bind _ m (fun x => k))
  (at level 61, m at next level, right associativity).

(** [MamoDataset.__getitem__(self, index)], [index] an integer or a slice. *)
Definition __getitem__index (idx : index) : method sample (item * item) :=
  t <- attr _ (_input_data) ;;
  x <- lift _ (tensor_index t idx) ;;
  o <- attr _ (_output_data) ;;
  match o with
  | None => ret _ (x, x)
  | Some o =>
      y <- lift _ (tensor_index o idx) ;;
      ret _ (x, y)
  end.

End Slicing.

Arguments Sample {sample} x.
Arguments Rows {sample} r.
Arguments pick {sample} t first k count.
Arguments tensor_getslice {sample} t s.
Arguments tensor_index {sample} t idx.
Arguments __getitem__index {sample} idx _.

(** ** Reading a whole table, position by position *)

(** The outcomes of [self[0]], [self[1]], ..., [self[count - 1]]. *)
Definition read_all {sample : Type} (self : MamoDataset sample) (count : nat)
  : list (result (sample * sample)) :=
  map (fun k => fst (__getitem__ (Z.of_nat k) self)) (seq 0 count).

(** [fst] under [result]. *)
Definition input_part {A B : Type} (r : result (A * B)) : result A :=
  match r with
  | Ok (x, _) => Ok x
  | Raise e => Raise e
  end.

(** The data the second component of a pair is drawn from. *)
Definition targets {sample : Type} (inputs : ndarray sample)
    (output_data : option (ndarray sample)) : ndarray sample :=
  match output_data with
  | Some outputs => outputs
  | None => inputs
  end.

(** ** Concrete tables *)

Definition rows3 : ndarray (list Z) := [[1; 2]; [3; 4]; [5; 6]].
Definition rows2 : ndarray (list Z) := [[1; 2]; [3; 4]].
Definition labels2 : ndarray (list Z) := [[0]; [1]].

(** ** Concrete scenarios *)

Example scenario_inputs_only :
  let t := mkMamoDataset rows3 None in
  __init__ (Some rows3) None = Ok t
  /\ __len__ t = (Ok 3, t)
  /\ __getitem__ 1 t = (Ok ([3; 4], [3; 4]), t).
Proof. repeat split. Qed.

Example scenario_inputs_and_outputs :
  let t := mkMamoDataset rows2 (Some labels2) in
  __init__ (Some rows2) (Some labels2) = Ok t
  /\ __getitem__ 0 t = (Ok ([1; 2], [0]), t)
  /\ __getitem__ 1 t = (Ok ([3; 4], [1]), t).
Proof. repeat split. Qed.

Example scenario_length_mismatch :
  __init__ (Some rows2) (Some [[0]])
  = Raise (ValueError length_mismatch_msg).
Proof. reflexivity. Qed.

Example scenario_last_sample :
  __getitem__ (-1) (mkMamoDataset rows3 None)
  = (Ok ([5; 6], [5; 6]), mkMamoDataset rows3 None).
Proof. reflexivity. Qed.

Example scenario_past_the_end :
  fst (__getitem__ 3 (mkMamoDataset rows3 None))
  = Raise IndexError
  /\ fst (__getitem__ (-4) (mkMamoDataset rows3 None))
  = Raise IndexError.
Proof. split; reflexivity. Qed.

Example scenario_index_beyond_64_bits :
  fst (__getitem__ (2 ^ 63) (mkMamoDataset rows3 None))
  = Raise (ValueError index_overflow_msg)
  /\ fst (__getitem__ (- 2 ^ 63 - 1) (mkMamoDataset rows3 None))
     = Raise (ValueError index_overflow_msg)
  /\ fst (__getitem__ (2 ^ 63 - 1) (mkMamoDataset rows3 None))
     = Raise IndexError
  /\ fst (__getitem__ (- 2 ^ 63) (mkMamoDataset rows3 None))
     = Raise IndexError.
Proof. repeat split. Qed.

Example scenario_slices :
  tensor_getslice rows3 (mkSlice (Some 1) None None) = Ok [[3; 4]; [5; 6]]
  /\ tensor_getslice rows3 (mkSlice None None (Some 2)) = Ok [[1; 2]; [5; 6]]
  /\ tensor_getslice rows3 (mkSlice (Some (-2)) (Some 10) None)
     = Ok [[3; 4]; [5; 6]]
  /\ tensor_getslice rows3 (mkSlice (Some 5) (Some 10) None) = Ok []
  /\ tensor_getslice rows3 (mkSlice (Some 2) (Some 1) None) = Ok []
  /\ tensor_getslice rows3 (mkSlice None (Some (-1)) None)
     = Ok [[1; 2]; [3; 4]]
  /\ tensor_getslice rows3 (mkSlice None None (Some (-1)))
     = Raise (ValueError step_negative_msg).
Proof. repeat split. Qed.

Example scenario_slice_of_pairs :
  let t := mkMamoDataset rows2 (Some labels2) in
  __getitem__index (SliceIndex (mkSlice (Some 1) None None)) t
  = (Ok (Rows [[3; 4]], Rows [[1]]), t)
  /\ __getitem__index (IntIndex 1) t = (Ok (Sample [3; 4], Sample [1]), t).
Proof. split; reflexivity. Qed.

(** ** Indexing a tensor *)

Section TensorIndexing.

Context {sample : Type}.
Implicit Types (t : tensor sample) (i : Z).

Lemma nth_error_within t (k : nat) :
  (k < List.length t)%nat -> exists x, nth_error t k = Some x.
Proof.
  intros Hk. destruct (nth_error t k) as [x|] eqn:E.
  - now exists x.
  - apply nth_error_None in E. lia.
Qed.

Lemma int64_spec (z : Z) : int64 z = true <-> - 2 ^ 63 <= z < 2 ^ 63.
Proof. unfold int64. rewrite andb_true_iff, Z.leb_le, Z.ltb_lt. tauto. Qed.

(** An index inside [-n, n) is never taken for an overflow. *)
Lemma no_overflow_inside t i :
  - len t <= i < len t -> int64 (len t) && negb (int64 i) = false.
Proof.
  intros Hi. destruct (int64 (len t)) eqn:En; [|reflexivity].
  apply int64_spec in En.
  assert (Ei : int64 i = true) by (apply int64_spec; lia).
  now rewrite Ei.
Qed.

Lemma no_overflow_int64 t i :
  - 2 ^ 63 <= i < 2 ^ 63 -> int64 (len t) && negb (int64 i) = false.
Proof.
  intros Hi. assert (Ei : int64 i = true) by now apply int64_spec.
  rewrite Ei. apply andb_false_r.
Qed.

Lemma tensor_getitem_forward t i :
  0 <= i < len t ->
  exists x, nth_error t (Z.to_nat i) = Some x /\ tensor_getitem t i = Ok x.
Proof.
  intros Hi. unfold tensor_getitem.
  destruct (nth_error_within t (Z.to_nat i)) as [x Hx].
  { unfold len in Hi. lia. }
  exists x. split; [exact Hx|].
  rewrite no_overflow_inside by lia.
  replace (i <? - len t) with false by (symmetry; apply Z.ltb_ge; lia).
  replace (len t <=? i) with false by (symmetry; apply Z.leb_gt; lia).
  replace (i <? 0) with false by (symmetry; apply Z.ltb_ge; lia).
  cbn. now rewrite Hx.
Qed.

Lemma tensor_getitem_backward t i :
  - len t <= i < 0 ->
  exists x,
    nth_error t (Z.to_nat (len t + i)) = Some x /\ tensor_getitem t i = Ok x.
Proof.
  intros Hi. unfold tensor_getitem.
  destruct (nth_error_within t (Z.to_nat (len t + i))) as [x Hx].
  { unfold len in *. lia. }
  exists x. split; [exact Hx|].
  rewrite no_overflow_inside by lia.
  replace (i <? - len t) with false by (symmetry; apply Z.ltb_ge; lia).
  replace (len t <=? i) with false by (symmetry; apply Z.leb_gt; lia).
  replace (i <? 0) with true by (symmetry; apply Z.ltb_lt; lia).
  cbn. rewrite (Z.add_comm i). now rewrite Hx.
Qed.

Lemma bounds_test_true t i :
  i < - len t \/ len t <= i -> ((i <? - len t) || (len t <=? i))%bool = true.
Proof.
  intros Hi. apply orb_true_iff.
  destruct Hi; [left; apply Z.ltb_lt | right; apply Z.leb_le]; lia.
Qed.

(** A 64-bit index outside [-n, n) raises [IndexError]. *)
Lemma tensor_getitem_outside t i :
  - 2 ^ 63 <= i < 2 ^ 63 ->
  i < - len t \/ len t <= i -> tensor_getitem t i = Raise IndexError.
Proof.
  intros H64 Hi. unfold tensor_getitem.
  now rewrite no_overflow_int64, bounds_test_true.
Qed.

(** Just past the last sample the lookup raises [IndexError]. *)
Lemma tensor_getitem_at_len t : tensor_getitem t (len t) = Raise IndexError.
Proof.
  unfold tensor_getitem.
  replace (int64 (len t) && negb (int64 (len t))) with false
    by (now destruct (int64 (len t))).
  rewrite bounds_test_true by lia. reflexivity.
Qed.

(** On a tensor, an index that does not fit in 64 bits raises
    [ValueError]. *)
Lemma tensor_getitem_overflow t i :
  len t < 2 ^ 63 -> i < - 2 ^ 63 \/ 2 ^ 63 <= i ->
  tensor_getitem t i = Raise (ValueError index_overflow_msg).
Proof.
  intros Hn Hi. unfold tensor_getitem.
  assert (En : int64 (len t) = true).
  { apply int64_spec. unfold len in *. lia. }
  assert (Ei : int64 i = false).
  { destruct (int64 i) eqn:E; [|reflexivity]. apply int64_spec in E. lia. }
  now rewrite En, Ei.
Qed.

(** No index selects a sample of the empty tensor. *)
Lemma tensor_getitem_nil i :
  tensor_getitem (@nil sample) i =
  if int64 i then Raise IndexError else Raise (ValueError index_overflow_msg).
Proof.
  unfold tensor_getitem.
  rewrite (bounds_test_true (@nil sample) i) by (unfold len; cbn; lia).
  change (int64 (len (@nil sample))) with true.
  destruct (int64 i); reflexivity.
Qed.

(** Whenever indexing answers, it answers with a sample and the index
    was inside [-n, n). *)
Lemma tensor_getitem_Ok_inv t i x :
  tensor_getitem t i = Ok x -> - len t <= i < len t.
Proof.
  unfold tensor_getitem. intros H.
  destruct (int64 (len t) && negb (int64 i)); [discriminate|].
  destruct (Z_lt_dec i (- len t)) as [Hlo|Hlo].
  - rewrite bounds_test_true in H by lia. discriminate.
  - destruct (Z_le_dec (len t) i) as [Hhi|Hhi].
    + rewrite bounds_test_true in H by lia. discriminate.
    + lia.
Qed.

End TensorIndexing.

(** ** The methods only read the receiver *)

Section ReadOnly.

Context {sample : Type}.
Implicit Types (self : MamoDataset sample) (i : Z).

Lemma len_run self :
  __len__ self = (Ok (len (_input_data self)), self).
Proof. reflexivity. Qed.

(** [__getitem__] unfolded into the two host-library lookups. *)
Lemma getitem_run self i :
  __getitem__ i self =
  (match tensor_getitem (_input_data self) i with
   | Ok x =>
       match _output_data self with
       | None => Ok (x, x)
       | Some o =>
           match tensor_getitem o i with
           | Ok y => Ok (x, y)
           | Raise e => Raise e
           end
       end
   | Raise e => Raise e
   end, self).
Proof.
  unfold __getitem__, bind, attr, lift, ret.
  destruct (tensor_getitem (_input_data self) i) as [x|e]; [|reflexivity].
  destruct (_output_data self) as [o|]; [|reflexivity].
  destruct (tensor_getitem o i); reflexivity.
Qed.

(** No integer lookup on a table without samples returns a pair. *)
Lemma getitem_empty (o : option (tensor sample)) i :
  __getitem__ i (mkMamoDataset [] o) =
  (if int64 i then Raise IndexError
   else Raise (ValueError index_overflow_msg), mkMamoDataset [] o).
Proof.
  rewrite getitem_run. cbn [_input_data]. rewrite tensor_getitem_nil.
  destruct (int64 i); reflexivity.
Qed.

Lemma getitem_self self i : snd (__getitem__ i self) = self.
Proof. now rewrite getitem_run. Qed.

Lemma len_self self : snd (__len__ self) = self.
Proof. reflexivity. Qed.

Lemma exec_self (c : call) self : exec c self = self.
Proof. destruct c; [apply len_self | apply getitem_self]. Qed.

Lemma exec_all_self (cs : list call) self : exec_all cs self = self.
Proof.
  unfold exec_all. induction cs as [|c cs IH]; cbn; [reflexivity|].
  now rewrite exec_self.
Qed.

(** What the constructor stores when it succeeds. *)
Lemma init_Ok_inv (input_data output_data : option (ndarray sample)) self :
  __init__ input_data output_data = Ok self ->
  exists inp,
    input_data = Some inp
    /\ self = mkMamoDataset (from_numpy inp) (option_map from_numpy output_data)
    /\ (forall out, output_data = Some out -> len out = len inp).
Proof.
  unfold __init__. destruct input_data as [inp|]; [|discriminate].
  destruct output_data as [out|].
  - destruct (len inp =? len out) eqn:E; cbn; [|discriminate].
    intros [= <-]. exists inp. repeat split.
    intros out' [= <-]. apply Z.eqb_eq in E. lia.
  - intros [= <-]. exists inp. repeat split. discriminate.
Qed.

End ReadOnly.

(** ** Properties of the table *)

Section Properties.

Context {sample : Type}.
Implicit Types (inputs outputs : ndarray sample).
Implicit Types (t : MamoDataset sample) (i j n : Z).

(** C1. A table built from [inputs] alone has as many entries as
    [inputs], and at every position [i] of [0 <= i < N] the lookup
    returns the input sample at [i] twice. *)
Theorem getitem_inputs_only inputs :
  exists t,
    __init__ (Some inputs) None = Ok t
    /\ __len__ t = (Ok (len inputs), t)
    /\ forall i, 0 <= i < len inputs ->
         exists x,
           nth_error inputs (Z.to_nat i) = Some x
           /\ __getitem__ i t = (Ok (x, x), t).
Proof.
  eexists. split; [reflexivity|]. split; [reflexivity|].
  intros i Hi. destruct (tensor_getitem_forward inputs i Hi) as (x & Hx & Hg).
  exists x. split; [exact Hx|].
  rewrite getitem_run. cbn. unfold from_numpy. now rewrite Hg.
Qed.

(** C2. A table built from [inputs] and [outputs] of the same length [N]
    has [N] entries, and at every position [i] of [0 <= i < N] the
    lookup returns the input sample at [i] paired with the output sample
    at [i]. *)
Theorem getitem_inputs_outputs inputs outputs :
  len outputs = len inputs ->
  exists t,
    __init__ (Some inputs) (Some outputs) = Ok t
    /\ __len__ t = (Ok (len inputs), t)
    /\ forall i, 0 <= i < len inputs ->
         exists x y,
           nth_error inputs (Z.to_nat i) = Some x
           /\ nth_error outputs (Z.to_nat i) = Some y
           /\ __getitem__ i t = (Ok (x, y), t).
Proof.
  intros Hlen. eexists. split.
  { unfold __init__. rewrite Hlen, Z.eqb_refl. reflexivity. }
  split; [reflexivity|].
  intros i Hi.
  destruct (tensor_getitem_forward inputs i Hi) as (x & Hx & Hgx).
  destruct (tensor_getitem_forward outputs i) as (y & Hy & Hgy); [lia|].
  exists x, y. repeat split; try assumption.
  rewrite getitem_run. cbn. unfold from_numpy. now rewrite Hgx, Hgy.
Qed.

(** C3, as the code has it. On a constructed table of size [n], a
    lookup at an integer [i] that fits in 64 bits, with [i < -n] or
    [i >= n], raises [IndexError] and leaves the table as it was; a lookup
    at [i] with [-n <= i <= -1] does not raise: it returns a pair. *)
Theorem getitem_outside_raises
    (input_data output_data : option (ndarray sample)) t n i :
  __init__ input_data output_data = Ok t ->
  __len__ t = (Ok n, t) ->
  (- 2 ^ 63 <= i < 2 ^ 63 ->
   i < - n \/ i >= n ->
   __getitem__ i t = (Raise IndexError, t))
  /\ (- n <= i <= -1 -> exists p, __getitem__ i t = (Ok p, t)).
Proof.
  intros Hinit Hn. rewrite len_run in Hn. injection Hn as Hn. split.
  - intros H64 Hi.
    rewrite getitem_run, tensor_getitem_outside by lia. reflexivity.
  - intros Hi.
    destruct (init_Ok_inv _ _ _ Hinit) as (inp & _ & -> & Hout).
    cbn in Hn. unfold from_numpy in Hn. subst n.
    destruct (tensor_getitem_backward inp i) as (x & _ & Hx); [lia|].
    rewrite getitem_run. cbn. unfold from_numpy. rewrite Hx.
    destruct output_data as [out|]; cbn; [|eauto].
    destruct (tensor_getitem_backward out i) as (y & _ & Hy).
    { rewrite (Hout out eq_refl). lia. }
    rewrite Hy. eauto.
Qed.

(** C4. With [outputs] of a length other than that of [inputs] the
    constructor raises [ValueError]; it yields no table. *)
Theorem init_length_mismatch inputs outputs :
  len outputs <> len inputs ->
  __init__ (Some inputs) (Some outputs) = Raise (ValueError length_mismatch_msg)
  /\ forall t, __init__ (Some inputs) (Some outputs) <> Ok t.
Proof.
  intros Hne.
  assert (E : __init__ (Some inputs) (Some outputs)
              = Raise (ValueError length_mismatch_msg)).
  { unfold __init__.
    replace (len inputs =? len outputs) with false; [reflexivity|].
    symmetry. apply Z.eqb_neq. lia. }
  split; [exact E|]. intros t. rewrite E. discriminate.
Qed.

(** C5. With [input_data = None] the constructor raises [ValueError],
    whatever [output_data] is; it yields no table. *)
Theorem init_input_none (output_data : option (ndarray sample)) :
  __init__ None output_data = Raise (ValueError input_none_msg)
  /\ forall t, __init__ None output_data <> Ok t.
Proof. split; [reflexivity|]. intros t. discriminate. Qed.

(** C6. A lookup leaves the table as it was, and a second lookup at the
    same index, straight away or after any further calls on the table,
    has the same outcome as the first (a sample pair or an exception),
    for every table and every integer index. *)
Theorem getitem_repeatable t i (cs : list call) :
  snd (__getitem__ i t) = t
  /\ fst (__getitem__ i (exec_all cs (snd (__getitem__ i t))))
     = fst (__getitem__ i t).
Proof.
  split; [apply getitem_self|].
  now rewrite getitem_self, exec_all_self.
Qed.

(** C7. A lookup that raises leaves the table as it was: afterwards the
    size and every lookup are what they were before. *)
Theorem failed_getitem_keeps_table t i (e : exn) :
  fst (__getitem__ i t) = Raise e ->
  let t' := snd (__getitem__ i t) in
  t' = t
  /\ fst (__len__ t') = fst (__len__ t)
  /\ forall j, fst (__getitem__ j t') = fst (__getitem__ j t).
Proof.
  intros _ t'. subst t'. rewrite getitem_self. repeat split.
Qed.

(** C8. A constructed table satisfies "stored outputs, when present, are
    as long as the stored inputs", and every sequence of size and lookup
    calls leaves the table, hence the invariant, as it was. *)
Theorem lengths_match_for_life
    (input_data output_data : option (ndarray sample)) t :
  __init__ input_data output_data = Ok t ->
  lengths_match t
  /\ forall cs : list call,
       exec_all cs t = t /\ lengths_match (exec_all cs t).
Proof.
  intros Hinit.
  assert (Hinv : lengths_match t).
  { destruct (init_Ok_inv _ _ _ Hinit) as (inp & _ & -> & Hout).
    unfold lengths_match. cbn.
    destruct output_data as [out|]; cbn; [|exact I].
    now apply Hout. }
  split; [exact Hinv|]. intros cs.
  rewrite exec_all_self. split; [reflexivity | exact Hinv].
Qed.

(** C9. On a table of size [N >= 1], a lookup at [i] with
    [-N <= i <= -1] returns the pair at position [N + i]: the input
    sample twice without outputs, the input and the output sample with
    outputs. *)
Theorem getitem_negative_wraps inputs (output_data : option (ndarray sample)) t i :
  __init__ (Some inputs) output_data = Ok t ->
  - len inputs <= i <= -1 ->
  exists x,
    nth_error inputs (Z.to_nat (len inputs + i)) = Some x
    /\ match output_data with
       | None => __getitem__ i t = (Ok (x, x), t)
       | Some outputs =>
           exists y,
             nth_error outputs (Z.to_nat (len inputs + i)) = Some y
             /\ __getitem__ i t = (Ok (x, y), t)
       end.
Proof.
  intros Hinit Hi.
  destruct (init_Ok_inv _ _ _ Hinit) as (inp & [= <-] & -> & Hout).
  destruct (tensor_getitem_backward inputs i) as (x & Hx & Hgx); [lia|].
  exists x. split; [exact Hx|].
  destruct output_data as [outputs|]; cbn [option_map].
  - specialize (Hout outputs eq_refl).
    destruct (tensor_getitem_backward outputs i) as (y & Hy & Hgy); [lia|].
    exists y. rewrite <- Hout. split; [exact Hy|].
    rewrite getitem_run. cbn. unfold from_numpy. now rewrite Hgx, Hgy.
  - rewrite getitem_run. cbn. unfold from_numpy. now rewrite Hgx.
Qed.

(** C10, as the code has it. With an empty input sequence the
    constructor succeeds when the outputs are absent or empty too, and
    raises [ValueError] for the length mismatch when they are not empty.
    The table built has size 0 and no integer lookup on it returns a pair:
    every lookup raises, and at an index that fits in 64 bits it raises
    [IndexError]. *)
Theorem init_empty_inputs (output_data : option (ndarray sample)) :
  (output_data = None \/ output_data = Some [] ->
   exists t,
     __init__ (Some []) output_data = Ok t
     /\ __len__ t = (Ok 0, t)
     /\ (forall i, exists e, __getitem__ i t = (Raise e, t))
     /\ (forall i, - 2 ^ 63 <= i < 2 ^ 63 ->
                   __getitem__ i t = (Raise IndexError, t)))
  /\ (forall outputs,
        output_data = Some outputs -> outputs <> [] ->
        __init__ (Some []) output_data
        = Raise (ValueError length_mismatch_msg)).
Proof.
  split.
  - intros Hout.
    exists (mkMamoDataset [] (option_map from_numpy output_data)).
    split; [destruct Hout as [-> | ->]; reflexivity|].
    split; [reflexivity|]. split; intros i.
    + rewrite getitem_empty. destruct (int64 i); eauto.
    + intros Hi. rewrite getitem_empty.
      replace (int64 i) with true by (symmetry; now apply int64_spec).
      reflexivity.
  - intros outputs -> Hne. destruct outputs as [|x outputs]; [easy|].
    unfold __init__.
    replace (len [] =? len (x :: outputs)) with false; [reflexivity|].
    symmetry. apply Z.eqb_neq. unfold len. cbn [List.length]. lia.
Qed.

End Properties.

(** ** The properties at concrete tables *)

Lemma getitem_inputs_only_witness :
  exists t,
    __init__ (Some rows3) None = Ok t
    /\ __len__ t = (Ok 3, t)
    /\ __getitem__ 1 t = (Ok ([3; 4], [3; 4]), t).
Proof.
  destruct (getitem_inputs_only rows3) as (t & Hinit & Hlen & Hget).
  exists t. split; [exact Hinit|]. split; [exact Hlen|].
  destruct (Hget 1) as (x & Hx & Hg); [cbn; lia|].
  cbn in Hx. injection Hx as <-. exact Hg.
Defined.

Lemma getitem_inputs_outputs_witness :
  len labels2 = len rows2
  /\ exists t,
       __init__ (Some rows2) (Some labels2) = Ok t
       /\ __len__ t = (Ok 2, t)
       /\ __getitem__ 0 t = (Ok ([1; 2], [0]), t).
Proof.
  split; [reflexivity|].
  destruct (getitem_inputs_outputs rows2 labels2 eq_refl)
    as (t & Hinit & Hlen & Hget).
  exists t. split; [exact Hinit|]. split; [exact Hlen|].
  destruct (Hget 0) as (x & y & Hx & Hy & Hg); [cbn; lia|].
  cbn in Hx, Hy. injection Hx as <-. injection Hy as <-. exact Hg.
Defined.

(** C3 as stated fails: [-1] is below [0], yet the lookup answers with
    the last sample. *)
Lemma getitem_minus_one_answers :
  let t := mkMamoDataset rows3 None in
  __init__ (Some rows3) None = Ok t
  /\ __len__ t = (Ok 3, t)
  /\ (-1 < 0 \/ -1 >= 3)
  /\ __getitem__ (-1) t = (Ok ([5; 6], [5; 6]), t)
  /\ fst (__getitem__ (-1) t) <> Raise IndexError.
Proof.
  cbn zeta. repeat split.
  - left. lia.
  - cbn. discriminate.
Qed.

Lemma getitem_outside_raises_witness :
  let t := mkMamoDataset rows3 None in
  __init__ (Some rows3) None = Ok t
  /\ __len__ t = (Ok 3, t)
  /\ - 2 ^ 63 <= -4 < 2 ^ 63
  /\ (-4 < - 3 \/ -4 >= 3)
  /\ __getitem__ (-4) t = (Raise IndexError, t)
  /\ - 3 <= -3 <= -1
  /\ exists p, __getitem__ (-3) t = (Ok p, t).
Proof.
  cbn zeta.
  assert (H64 : - 2 ^ 63 <= -4 < 2 ^ 63) by lia.
  assert (H : -4 < - 3 \/ -4 >= 3) by (left; lia).
  assert (Hneg : - 3 <= -3 <= -1) by lia.
  split; [reflexivity|]. split; [reflexivity|]. split; [exact H64|].
  split; [exact H|]. split.
  - exact (proj1 (getitem_outside_raises (Some rows3) None _ 3 (-4)
                    eq_refl eq_refl) H64 H).
  - split; [exact Hneg|].
    exact (proj2 (getitem_outside_raises (Some rows3) None _ 3 (-3)
                    eq_refl eq_refl) Hneg).
Defined.

Lemma init_length_mismatch_witness :
  len [[0]] <> len rows2
  /\ __init__ (Some rows2) (Some [[0]]) = Raise (ValueError length_mismatch_msg).
Proof.
  assert (H : len [[0]] <> len rows2) by (cbn; lia).
  split; [exact H|]. exact (proj1 (init_length_mismatch rows2 [[0]] H)).
Defined.

Lemma failed_getitem_keeps_table_witness :
  let t := mkMamoDataset rows2 (Some labels2) in
  fst (__getitem__ 2 t) = Raise IndexError
  /\ snd (__getitem__ 2 t) = t
  /\ fst (__getitem__ 1 (snd (__getitem__ 2 t))) = Ok ([3; 4], [1]).
Proof.
  cbn zeta. split; [reflexivity|].
  destruct (failed_getitem_keeps_table
              (mkMamoDataset rows2 (Some labels2)) 2 IndexError eq_refl)
    as (Hsame & _ & Hget).
  split; [exact Hsame|]. rewrite (Hget 1). reflexivity.
Defined.

Lemma lengths_match_for_life_witness :
  let t := mkMamoDataset rows2 (Some labels2) in
  __init__ (Some rows2) (Some labels2) = Ok t
  /\ lengths_match (exec_all [CallGetitem 0; CallLen; CallGetitem 7] t).
Proof.
  cbn zeta. split; [reflexivity|].
  exact (proj2 (proj2 (lengths_match_for_life
                         (Some rows2) (Some labels2) _ eq_refl) _)).
Defined.

Lemma getitem_negative_wraps_witness :
  let t := mkMamoDataset rows2 (Some labels2) in
  __init__ (Some rows2) (Some labels2) = Ok t
  /\ - len rows2 <= -2 <= -1
  /\ __getitem__ (-2) t = (Ok ([1; 2], [0]), t).
Proof.
  cbn zeta.
  assert (H : - len rows2 <= -2 <= -1) by (cbn; lia).
  split; [reflexivity|]. split; [exact H|].
  destruct (getitem_negative_wraps rows2 (Some labels2) _ (-2) eq_refl H)
    as (x & Hx & y & Hy & Hg).
  cbn in Hx, Hy. injection Hx as <-. injection Hy as <-. exact Hg.
Defined.

(** C10 as stated fails twice: on the empty table the lookup at [2 ^ 63]
    raises [ValueError], not [IndexError]; and with outputs that are not
    empty the constructor rejects the empty inputs. *)
Lemma empty_inputs_not_as_claimed :
  let t := mkMamoDataset (@nil (list Z)) None in
  __init__ (Some []) None = Ok t
  /\ __len__ t = (Ok 0, t)
  /\ fst (__getitem__ (2 ^ 63) t) = Raise (ValueError index_overflow_msg)
  /\ fst (__getitem__ (2 ^ 63) t) <> Raise IndexError
  /\ __init__ (Some (@nil (list Z))) (Some [[0]])
     = Raise (ValueError length_mismatch_msg).
Proof.
  cbn zeta. repeat split. cbn. discriminate.
Qed.

Lemma init_empty_inputs_witness :
  (exists t : MamoDataset (list Z),
     __init__ (Some []) None = Ok t
     /\ __len__ t = (Ok 0, t)
     /\ (exists e, __getitem__ (2 ^ 63) t = (Raise e, t))
     /\ __getitem__ 0 t = (Raise IndexError, t))
  /\ __init__ (Some (@nil (list Z))) (Some [[0]])
     = Raise (ValueError length_mismatch_msg).
Proof.
  split.
  - destruct (proj1 (init_empty_inputs (sample := list Z) None)
                (or_introl eq_refl))
      as (t & Hinit & Hlen & Hany & Hget).
    exists t. split; [exact Hinit|]. split; [exact Hlen|].
    split; [exact (Hany (2 ^ 63))|]. apply Hget. lia.
  - apply (proj2 (init_empty_inputs (Some [[0]])) [[0]] eq_refl).
    discriminate.
Defined.

(** ** More on construction and integer lookups *)

Section Lookups.

Context {sample : Type}.
Implicit Types (inputs outputs : ndarray sample).
Implicit Types (t : MamoDataset sample) (i n : Z).

Lemma nth_error_combine {A B : Type} (l : list A) (l' : list B) (k : nat) :
  nth_error (combine l l') k =
  match nth_error l k, nth_error l' k with
  | Some x, Some y => Some (x, y)
  | _, _ => None
  end.
Proof.
  revert l' k. induction l as [|a l IH]; intros [|b l'] [|k]; cbn;
    try reflexivity.
  - now destruct (nth_error l k).
  - apply IH.
Qed.

(** Counting from the end is counting from the front, [len t] further. *)
Lemma tensor_getitem_shift (r : tensor sample) i :
  - len r <= i < 0 -> tensor_getitem r i = tensor_getitem r (i + len r).
Proof.
  intros Hi.
  destruct (tensor_getitem_backward r i Hi) as (x & Hx & ->).
  destruct (tensor_getitem_forward r (i + len r)) as (x' & Hx' & ->); [lia|].
  rewrite Z.add_comm in Hx'. congruence.
Qed.

(** Two tensors of one length answer, or raise, at the same indices. *)
Lemma tensor_getitem_Ok_same_len (r r' : tensor sample) i x :
  len r' = len r -> tensor_getitem r i = Ok x ->
  exists y, tensor_getitem r' i = Ok y.
Proof.
  intros Hlen Hx. apply tensor_getitem_Ok_inv in Hx.
  destruct (Z_lt_dec i 0) as [Hneg|Hpos].
  - destruct (tensor_getitem_backward r' i) as (y & _ & Hy); [lia|]. eauto.
  - destruct (tensor_getitem_forward r' i) as (y & _ & Hy); [lia|]. eauto.
Qed.

Lemma tensor_getitem_Raise_inv (r : tensor sample) i (e : exn) :
  - 2 ^ 63 <= i < 2 ^ 63 -> tensor_getitem r i = Raise e -> e = IndexError.
Proof.
  intros H64. unfold tensor_getitem. rewrite no_overflow_int64 by exact H64.
  destruct ((i <? - len r) || (len r <=? i))%bool; [congruence|].
  destruct (nth_error r _); congruence.
Qed.

(** The sample an answered lookup returns, by its position from the front. *)
Lemma tensor_getitem_Ok_position (r : tensor sample) i x :
  tensor_getitem r i = Ok x ->
  nth_error r (Z.to_nat (if i <? 0 then i + len r else i)) = Some x.
Proof.
  intros Hx. pose proof (tensor_getitem_Ok_inv _ _ _ Hx) as Hi.
  destruct (Z.ltb_spec i 0) as [Hneg|Hpos].
  - destruct (tensor_getitem_backward r i) as (x' & Hx' & Hg); [lia|].
    rewrite Z.add_comm. congruence.
  - destruct (tensor_getitem_forward r i) as (x' & Hx' & Hg); [lia|].
    congruence.
Qed.

(** X1. The constructor returns a table exactly when the inputs are given
    and the outputs are absent or as long as the inputs; the table then
    holds the given sequences, sample for sample. *)
Theorem init_succeeds_iff (input_data output_data : option (ndarray sample)) :
  ((exists t, __init__ input_data output_data = Ok t) <->
   (exists inputs,
      input_data = Some inputs
      /\ forall outputs, output_data = Some outputs -> len outputs = len inputs))
  /\ forall t,
       __init__ input_data output_data = Ok t ->
       input_data = Some (_input_data t) /\ output_data = _output_data t.
Proof.
  split; [split|].
  - intros [t Ht]. destruct (init_Ok_inv _ _ _ Ht) as (inp & -> & _ & Hout).
    exists inp. split; [reflexivity | exact Hout].
  - intros (inp & -> & Hout). destruct output_data as [out|].
    + eexists. unfold __init__.
      rewrite <- (Hout out eq_refl), Z.eqb_refl. reflexivity.
    + eexists. reflexivity.
  - intros t Ht. destruct (init_Ok_inv _ _ _ Ht) as (inp & -> & -> & _).
    cbn. split; [reflexivity|]. now destruct output_data.
Qed.

(** X2. On a constructed table of size [n], a lookup at an integer [i]
    returns a pair exactly when [-n <= i < n]. *)
Theorem getitem_answers_iff
    (input_data output_data : option (ndarray sample)) t n i :
  __init__ input_data output_data = Ok t ->
  __len__ t = (Ok n, t) ->
  ((exists p, fst (__getitem__ i t) = Ok p) <-> - n <= i < n).
Proof.
  intros Hinit Hn. rewrite len_run in Hn. injection Hn as <-.
  destruct (init_Ok_inv _ _ _ Hinit) as (inp & -> & -> & Hout).
  rewrite getitem_run. cbn. unfold from_numpy. split.
  - intros [p Hp]. destruct (tensor_getitem inp i) as [x|e] eqn:Hx;
      [|discriminate].
    now apply tensor_getitem_Ok_inv in Hx.
  - intros Hi.
    assert (Hx : exists x, tensor_getitem inp i = Ok x).
    { destruct (Z_lt_dec i 0).
      - destruct (tensor_getitem_backward inp i) as (x & _ & Hx); [lia|]. eauto.
      - destruct (tensor_getitem_forward inp i) as (x & _ & Hx); [lia|]. eauto. }
    destruct Hx as [x Hx]. rewrite Hx.
    destruct output_data as [out|]; cbn; [|eauto].
    destruct (tensor_getitem_Ok_same_len inp out i x (Hout out eq_refl) Hx)
      as [y ->].
    eauto.
Qed.

(** X3. On a constructed table of size [n], the lookup at a negative
    index [i >= -n] is the lookup at [i + n]. *)
Theorem getitem_from_the_end
    (input_data output_data : option (ndarray sample)) t n i :
  __init__ input_data output_data = Ok t ->
  __len__ t = (Ok n, t) ->
  - n <= i < 0 ->
  __getitem__ i t = __getitem__ (i + n) t.
Proof.
  intros Hinit Hn Hi. rewrite len_run in Hn. injection Hn as <-.
  destruct (init_Ok_inv _ _ _ Hinit) as (inp & -> & -> & Hout).
  rewrite !getitem_run. cbn in *. unfold from_numpy in *.
  rewrite (tensor_getitem_shift inp i Hi).
  destruct output_data as [out|]; cbn; [|reflexivity].
  specialize (Hout out eq_refl).
  rewrite (tensor_getitem_shift out i) by lia. now rewrite Hout.
Qed.

End Lookups.

Section ReadingBack.

Context {sample : Type}.
Implicit Types (inputs outputs : ndarray sample).
Implicit Types (t : MamoDataset sample) (i n : Z).

Lemma targets_len inputs (output_data : option (ndarray sample)) :
  (forall outputs, output_data = Some outputs -> len outputs = len inputs) ->
  len (targets inputs output_data) = len inputs.
Proof. destruct output_data as [out|]; cbn; intros H; [now apply H|reflexivity]. Qed.

(** A lookup on a constructed table, as two lookups in the given data. *)
Lemma getitem_constructed inputs (output_data : option (ndarray sample)) t i :
  __init__ (Some inputs) output_data = Ok t ->
  fst (__getitem__ i t) =
  match tensor_getitem inputs i with
  | Ok x =>
      match tensor_getitem (targets inputs output_data) i with
      | Ok y => Ok (x, y)
      | Raise e => Raise e
      end
  | Raise e => Raise e
  end.
Proof.
  intros Hinit.
  destruct (init_Ok_inv _ _ _ Hinit) as (inp & [= <-] & -> & _).
  rewrite getitem_run. cbn. unfold from_numpy.
  destruct (tensor_getitem inputs i) as [x|e] eqn:Hx; [|reflexivity].
  destruct output_data as [out|]; cbn; [reflexivity|]. now rewrite Hx.
Qed.

(** X4. Reading a constructed table at positions [0, 1, ..., N - 1] gives
    back the given inputs, each paired with the output (or, without
    outputs, the input) of the same position, in order; the read at [N]
    raises [IndexError]. *)
Theorem read_all_round_trip inputs (output_data : option (ndarray sample)) t :
  __init__ (Some inputs) output_data = Ok t ->
  read_all t (List.length inputs)
  = map Ok (combine inputs (targets inputs output_data))
  /\ fst (__getitem__ (len inputs) t) = Raise IndexError.
Proof.
  intros Hinit.
  pose proof (getitem_constructed inputs output_data t) as Hget.
  destruct (init_Ok_inv _ _ _ Hinit) as (inp & [= <-] & _ & Hout).
  pose proof (targets_len inputs output_data Hout) as Hlen.
  split.
  - apply nth_error_ext. intros k. unfold read_all.
    rewrite !nth_error_map, nth_error_seq, nth_error_combine.
    destruct (Nat.ltb_spec k (List.length inputs)) as [Hk|Hk];
      cbn [option_map Nat.add].
    + rewrite (Hget _ Hinit).
      destruct (tensor_getitem_forward inputs (Z.of_nat k)) as (x & Hx & ->).
      { unfold len. lia. }
      destruct (tensor_getitem_forward (targets inputs output_data) (Z.of_nat k))
        as (y & Hy & ->).
      { rewrite Hlen. unfold len. lia. }
      rewrite Nat2Z.id in Hx, Hy. now rewrite Hx, Hy.
    + apply nth_error_None in Hk. now rewrite Hk.
  - rewrite (Hget _ Hinit), tensor_getitem_at_len. reflexivity.
Qed.

(** X5. Whatever the table, at an integer index that fits in 64 bits
    the only exception a lookup raises is [IndexError]. *)
Theorem getitem_raises_only_IndexError t i (e : exn) :
  - 2 ^ 63 <= i < 2 ^ 63 ->
  fst (__getitem__ i t) = Raise e -> e = IndexError.
Proof.
  intros H64. rewrite getitem_run. cbn.
  destruct (tensor_getitem (_input_data t) i) as [x|e1] eqn:Hx.
  - destruct (_output_data t) as [o|]; [|discriminate].
    destruct (tensor_getitem o i) as [y|e2] eqn:Hy; [discriminate|].
    intros [= <-]. eapply tensor_getitem_Raise_inv; [exact H64 | exact Hy].
  - intros [= <-]. eapply tensor_getitem_Raise_inv; [exact H64 | exact Hx].
Qed.

(** X6. A pair returned by a constructed table is never misaligned: its
    two samples sit at one and the same position of the given inputs and
    outputs, for positive and negative indices alike. *)
Theorem getitem_pair_aligned inputs outputs t i (x y : sample) :
  __init__ (Some inputs) (Some outputs) = Ok t ->
  fst (__getitem__ i t) = Ok (x, y) ->
  exists k : nat,
    nth_error inputs k = Some x /\ nth_error outputs k = Some y.
Proof.
  intros Hinit Hp.
  rewrite (getitem_constructed _ _ _ i Hinit) in Hp. cbn in Hp.
  destruct (init_Ok_inv _ _ _ Hinit) as (inp & [= <-] & _ & Hout).
  specialize (Hout outputs eq_refl).
  destruct (tensor_getitem inputs i) as [x'|] eqn:Hx; [|discriminate].
  destruct (tensor_getitem outputs i) as [y'|] eqn:Hy; [|discriminate].
  injection Hp as -> ->.
  apply tensor_getitem_Ok_position in Hx, Hy. rewrite Hout in Hy.
  eauto.
Qed.

(** X7. The input sample a lookup returns, and whether the lookup raises,
    do not depend on the outputs the table was built with. *)
Theorem input_part_ignores_outputs inputs outputs t1 t0 i :
  __init__ (Some inputs) (Some outputs) = Ok t1 ->
  __init__ (Some inputs) None = Ok t0 ->
  input_part (fst (__getitem__ i t1)) = input_part (fst (__getitem__ i t0)).
Proof.
  intros H1 H0.
  rewrite (getitem_constructed _ _ _ i H1), (getitem_constructed _ _ _ i H0).
  destruct (init_Ok_inv _ _ _ H1) as (inp & [= <-] & _ & Hout).
  cbn. destruct (tensor_getitem inputs i) as [x|e] eqn:Hx; [|reflexivity].
  destruct (tensor_getitem_Ok_same_len inputs outputs i x (Hout _ eq_refl) Hx)
    as [y ->].
  reflexivity.
Qed.

End ReadingBack.

(** ** Lookups with a slice *)

Section SliceBounds.

Lemma slice_start_range n (a : option Z) :
  0 <= n -> 0 <= slice_start n a <= n.
Proof.
  intros Hn. unfold slice_start. destruct a as [a|]; [|lia].
  cbv zeta.
  destruct (a <? 0);
    repeat match goal with
           | |- context [?u <? ?v] => destruct (Z.ltb_spec u v)
           | |- context [?u <=? ?v] => destruct (Z.leb_spec u v)
           end; lia.
Qed.

Ltac cases_on_tests :=
  cbv zeta;
  repeat match goal with
         | |- context [if ?u <? ?v then _ else _] =>
             destruct (Z.ltb_spec u v); cbv iota
         | |- context [if ?u <=? ?v then _ else _] =>
             destruct (Z.leb_spec u v); cbv iota
         end.

(** Bounds that already lie inside the tensor are taken as they are. *)
Lemma slice_start_inside n a :
  0 <= a <= n -> slice_start n (Some a) = a.
Proof.
  intros H. unfold slice_start.
  destruct (Z.ltb_spec a 0); [lia|]. cases_on_tests; lia.
Qed.

Lemma slice_stop_inside n first b :
  0 <= first <= b -> b <= n -> slice_stop n first (Some b) = b.
Proof.
  intros H Hn. unfold slice_stop.
  destruct (Z.ltb_spec b 0); [lia|]. cases_on_tests; lia.
Qed.

Lemma slice_stop_range n first (b : option Z) :
  0 <= first <= n -> first <= slice_stop n first b <= n.
Proof.
  intros Hn. unfold slice_stop. destruct b as [b|]; [|lia].
  cbv zeta.
  destruct (b <? 0);
    repeat match goal with
           | |- context [?u <? ?v] => destruct (Z.ltb_spec u v)
           | |- context [?u <=? ?v] => destruct (Z.leb_spec u v)
           end; lia.
Qed.

(** Every selected position lies below the slice's end. *)
Lemma slice_count_below first last k (j : nat) :
  0 < k -> (j < slice_count first last k)%nat ->
  first + Z.of_nat j * k < last.
Proof.
  unfold slice_count. intros Hk Hj.
  set (q := (last - first + k - 1) / k) in *.
  assert (Hq : Z.of_nat j + 1 <= q) by lia.
  pose proof (Z.mul_div_le (last - first + k - 1) k Hk) as Hdiv.
  fold q in Hdiv. nia.
Qed.

Lemma slice_count_step_one first last :
  first <= last -> slice_count first last 1 = Z.to_nat (last - first).
Proof.
  intros _. unfold slice_count. rewrite Z.div_1_r. f_equal. lia.
Qed.

End SliceBounds.

Section Slices.

Context {sample : Type}.
Implicit Types (inputs outputs : ndarray sample) (r : tensor sample).
Implicit Types (t : MamoDataset sample) (s : slice).

Lemma pick_spec r first k (count : nat) :
  (forall j, (j < count)%nat ->
     (Z.to_nat (first + Z.of_nat j * k) < List.length r)%nat) ->
  List.length (pick r first k count) = count
  /\ forall j, (j < count)%nat ->
       nth_error (pick r first k count) j
       = nth_error r (Z.to_nat (first + Z.of_nat j * k)).
Proof.
  unfold pick. induction count as [|c IH]; intros Hin.
  - split; [reflexivity|]. intros j Hj. lia.
  - destruct IH as [IHlen IHnth]. { intros j Hj. apply Hin. lia. }
    rewrite seq_S, flat_map_app. cbn [Nat.add flat_map].
    destruct (nth_error_within r _ (Hin c (Nat.lt_succ_diag_r c))) as [x Hx].
    rewrite Hx, app_nil_r. split.
    + rewrite length_app, IHlen. cbn. lia.
    + intros j Hj. destruct (Nat.eq_dec j c) as [->|Hne].
      * rewrite nth_error_app2 by lia. rewrite IHlen, Nat.sub_diag, Hx.
        reflexivity.
      * rewrite nth_error_app1 by lia. apply IHnth. lia.
Qed.

(** The rows a positive-step slice selects: their number and where each
    comes from. *)
Lemma tensor_getslice_spec r s :
  (forall k, step s = Some k -> 0 < k) ->
  let k := match step s with Some k => k | None => 1 end in
  let first := slice_start (len r) (start s) in
  let last := slice_stop (len r) first (stop s) in
  let rows := pick r first k (slice_count first last k) in
  tensor_getslice r s = Ok rows
  /\ List.length rows = slice_count first last k
  /\ forall j, (j < slice_count first last k)%nat ->
       0 <= first + Z.of_nat j * k < len r
       /\ nth_error rows j = nth_error r (Z.to_nat (first + Z.of_nat j * k)).
Proof.
  intros Hstep k first last rows.
  assert (Hk : 0 < k).
  { subst k. destruct (step s) as [k|]; [now apply Hstep | lia]. }
  assert (Hn : 0 <= len r) by (unfold len; lia).
  pose proof (slice_start_range (len r) (start s) Hn) as Hfirst.
  pose proof (slice_stop_range (len r) first (stop s) Hfirst) as Hlast.
  fold first in Hfirst. fold last in Hlast.
  assert (Hpos : forall j, (j < slice_count first last k)%nat ->
                   0 <= first + Z.of_nat j * k < len r).
  { intros j Hj. pose proof (slice_count_below first last k j Hk Hj). nia. }
  destruct (pick_spec r first k (slice_count first last k)) as [Hlen Hnth].
  { intros j Hj. specialize (Hpos j Hj). unfold len in Hpos. lia. }
  split.
  - unfold tensor_getslice. fold k.
    replace (k =? 0) with false by (symmetry; apply Z.eqb_neq; lia).
    replace (k <? 0) with false by (symmetry; apply Z.ltb_ge; lia).
    reflexivity.
  - split; [exact Hlen|]. intros j Hj. split; [now apply Hpos | now apply Hnth].
Qed.

(** [__getitem__index] unfolded into the two host-library lookups. *)
Lemma getitem_index_run t (idx : index) :
  __getitem__index idx t =
  (match tensor_index (_input_data t) idx with
   | Ok x =>
       match _output_data t with
       | None => Ok (x, x)
       | Some o =>
           match tensor_index o idx with
           | Ok y => Ok (x, y)
           | Raise e => Raise e
           end
       end
   | Raise e => Raise e
   end, t).
Proof.
  unfold __getitem__index, bind, attr, lift, ret.
  destruct (tensor_index (_input_data t) idx) as [x|e]; [|reflexivity].
  destruct (_output_data t) as [o|]; [|reflexivity].
  destruct (tensor_index o idx); reflexivity.
Qed.

(** At an integer index the two embeddings of the method agree. *)
Lemma getitem_index_int t (i : Z) :
  __getitem__index (IntIndex i) t =
  (match fst (__getitem__ i t) with
   | Ok (x, y) => Ok (Sample x, Sample y)
   | Raise e => Raise e
   end, snd (__getitem__ i t)).
Proof.
  rewrite getitem_index_run, getitem_run. cbn.
  destruct (tensor_getitem (_input_data t) i) as [x|e]; [|reflexivity].
  destruct (_output_data t) as [o|]; [|reflexivity].
  destruct (tensor_getitem o i); reflexivity.
Qed.

(** With the default step the selected rows are one contiguous block. *)
Lemma tensor_getslice_block r s :
  step s = None \/ step s = Some 1 ->
  let first := slice_start (len r) (start s) in
  let last := slice_stop (len r) first (stop s) in
  tensor_getslice r s
  = Ok (firstn (Z.to_nat (last - first)) (skipn (Z.to_nat first) r)).
Proof.
  intros Hstep first last.
  assert (Hpos : forall k, step s = Some k -> 0 < k).
  { intros k Hk. destruct Hstep as [H|H]; rewrite H in Hk; [discriminate|].
    injection Hk as <-. lia. }
  destruct (tensor_getslice_spec r s Hpos) as (Hrows & Hlen & Hnth).
  assert (Hk : match step s with Some k => k | None => 1 end = 1).
  { destruct Hstep as [-> | ->]; reflexivity. }
  rewrite Hk in *. fold first last in Hrows, Hlen, Hnth.
  assert (Hn : 0 <= len r) by (unfold len; lia).
  pose proof (slice_start_range (len r) (start s) Hn) as Hfirst.
  pose proof (slice_stop_range (len r) first (stop s) Hfirst) as Hlast.
  fold first in Hfirst. fold last in Hlast.
  rewrite slice_count_step_one in * by lia.
  rewrite Hrows. f_equal. apply nth_error_ext. intros j.
  rewrite nth_error_firstn, nth_error_skipn.
  destruct (Nat.ltb_spec j (Z.to_nat (last - first))) as [Hj|Hj].
  - destruct (Hnth j Hj) as [_ ->]. f_equal. lia.
  - apply nth_error_None. rewrite Hlen. exact Hj.
Qed.

Lemma tensor_getslice_Ok_step r s rows :
  tensor_getslice r s = Ok rows -> forall k, step s = Some k -> 0 < k.
Proof.
  unfold tensor_getslice. intros H k Hk. rewrite Hk in H.
  destruct (Z.eqb_spec k 0); [discriminate|].
  destruct (Z.ltb_spec k 0); [discriminate|]. lia.
Qed.

(** X8. A slice whose step is zero or negative makes the lookup raise
    [ValueError], on any table and whatever its bounds. *)
Theorem slice_step_not_positive t s (k : Z) :
  step s = Some k -> k <= 0 ->
  exists msg,
    __getitem__index (SliceIndex s) t = (Raise (ValueError msg), t).
Proof.
  intros Hs Hk. rewrite getitem_index_run. cbn. unfold tensor_getslice.
  rewrite Hs. destruct (Z.eqb_spec k 0); [eauto|].
  replace (k <? 0) with true by (symmetry; apply Z.ltb_lt; lia). eauto.
Qed.

(** X9. On a constructed table a slice whose step is absent, or
    positive and no larger than the table (a step of 1 always is allowed),
    never raises, however far its bounds lie outside the table: it returns
    two row sequences of one length, no longer than the table. *)
Theorem slice_always_answers
    (input_data output_data : option (ndarray sample)) t s :
  __init__ input_data output_data = Ok t ->
  (forall k, step s = Some k -> 0 < k <= Z.max 1 (len (_input_data t))) ->
  exists xs ys,
    __getitem__index (SliceIndex s) t = (Ok (Rows xs, Rows ys), t)
    /\ List.length xs = List.length ys
    /\ (List.length xs <= List.length (_input_data t))%nat.
Proof.
  intros Hinit Hsmall.
  assert (Hstep : forall k, step s = Some k -> 0 < k).
  { intros k Hk. now apply Hsmall. }
  clear Hsmall.
  destruct (init_Ok_inv _ _ _ Hinit) as (inp & -> & -> & Hout).
  destruct (tensor_getslice_spec inp s Hstep) as (Hx & Hxlen & Hxnth).
  rewrite getitem_index_run. cbn. unfold from_numpy. rewrite Hx.
  assert (Hbound : (slice_count (slice_start (len inp) (start s))
                      (slice_stop (len inp) (slice_start (len inp) (start s)) (stop s))
                      match step s with Some k => k | None => 1 end
                    <= List.length inp)%nat).
  { set (c := slice_count _ _ _) in *. destruct c as [|c]; [lia|].
    destruct (Hxnth c (Nat.lt_succ_diag_r c)) as [Hpos _].
    assert (0 < match step s with Some k => k | None => 1 end).
    { destruct (step s) as [k|]; [now apply Hstep | lia]. }
    pose proof (slice_start_range (len inp) (start s)) as Hfirst.
    unfold len in *. nia. }
  destruct output_data as [out|]; cbn.
  - destruct (tensor_getslice_spec out s Hstep) as (Hy & Hylen & _).
    rewrite Hy. rewrite (Hout out eq_refl) in *.
    do 2 eexists. split; [reflexivity|]. split; [congruence|].
    rewrite Hxlen. exact Hbound.
  - do 2 eexists. split; [reflexivity|]. split; [reflexivity|].
    rewrite Hxlen. exact Hbound.
Qed.

(** X10. The rows of a slice are rows of integer lookups: the samples at
    one position of the two returned sequences are a pair that the table
    returns at some index [0 <= i < N]. *)
Theorem slice_rows_are_lookups
    (input_data output_data : option (ndarray sample)) t s
    (xs ys : tensor sample) (j : nat) (x y : sample) :
  __init__ input_data output_data = Ok t ->
  __getitem__index (SliceIndex s) t = (Ok (Rows xs, Rows ys), t) ->
  nth_error xs j = Some x ->
  nth_error ys j = Some y ->
  exists i,
    0 <= i < len (_input_data t) /\ fst (__getitem__ i t) = Ok (x, y).
Proof.
  intros Hinit Hget Hxj Hyj.
  destruct (init_Ok_inv _ _ _ Hinit) as (inp & -> & -> & Hout).
  rewrite getitem_index_run in Hget.
  cbn in Hget. unfold from_numpy in *.
  destruct (tensor_getslice inp s) as [xs'|] eqn:Hx; [|discriminate].
  pose proof (tensor_getslice_Ok_step _ _ _ Hx) as Hstep.
  destruct (tensor_getslice_spec inp s Hstep) as (Hx' & Hxlen & Hxnth).
  rewrite Hx' in Hx. injection Hx as <-.
  set (k := match step s with Some k => k | None => 1 end) in *.
  set (first := slice_start (len inp) (start s)) in *.
  assert (Hxs : xs = pick inp first k
                  (slice_count first (slice_stop (len inp) first (stop s)) k)).
  { destruct output_data as [out|]; cbn in Hget.
    - destruct (tensor_getslice out s); [|discriminate]. congruence.
    - congruence. }
  assert (Hj : (j < slice_count first (slice_stop (len inp) first (stop s)) k)%nat).
  { rewrite <- Hxlen, <- Hxs. apply nth_error_Some. congruence. }
  destruct (Hxnth j Hj) as [Hpos Hnth]. rewrite <- Hxs, Hxj in Hnth.
  exists (first + Z.of_nat j * k). split; [exact Hpos|].
  rewrite getitem_run. cbn [fst _input_data _output_data].
  destruct (tensor_getitem_forward inp _ Hpos) as (x' & Hx1 & ->).
  assert (x' = x) by congruence. subst x'.
  destruct output_data as [out|]; cbn in Hget |- *.
  - specialize (Hout out eq_refl).
    destruct (tensor_getslice_spec out s Hstep) as (Hy' & _ & Hynth).
    rewrite Hy' in Hget. rewrite Hout in *. fold k first in Hget, Hynth.
    assert (Hys : ys = pick out first k
                    (slice_count first (slice_stop (len inp) first (stop s)) k))
      by congruence.
    destruct (Hynth j Hj) as [_ Hnth']. rewrite <- Hys, Hyj in Hnth'.
    destruct (tensor_getitem_forward out (first + Z.of_nat j * k))
      as (y' & Hy1 & ->); [lia|].
    assert (y' = y) by congruence. now subst y'.
  - assert (ys = xs) by congruence. subst ys.
    assert (y = x) by congruence. now subst y.
Qed.

(** X11. On a constructed table the slice [a:b] with
    [0 <= a <= b <= N] returns rows [a .. b - 1] of the given inputs and
    the same rows of the outputs (of the inputs again, without outputs). *)
Theorem slice_block inputs (output_data : option (ndarray sample)) t (a b : Z) :
  __init__ (Some inputs) output_data = Ok t ->
  0 <= a <= b -> b <= len inputs ->
  let block (r : tensor sample) :=
    firstn (Z.to_nat (b - a)) (skipn (Z.to_nat a) r) in
  __getitem__index (SliceIndex (mkSlice (Some a) (Some b) None)) t
  = (Ok (Rows (block inputs), Rows (block (targets inputs output_data))), t).
Proof.
  intros Hinit Hab Hb block.
  destruct (init_Ok_inv _ _ _ Hinit) as (inp & [= <-] & -> & Hout).
  assert (Hblock : forall r : tensor sample, len r = len inputs ->
            tensor_getslice r (mkSlice (Some a) (Some b) None) = Ok (block r)).
  { intros r Hr.
    rewrite (tensor_getslice_block r (mkSlice (Some a) (Some b) None))
      by (left; reflexivity).
    cbn [start stop]. rewrite Hr.
    rewrite slice_start_inside by lia. rewrite slice_stop_inside by lia.
    reflexivity. }
  rewrite getitem_index_run. cbn [tensor_index _input_data _output_data].
  unfold from_numpy. rewrite (Hblock inputs eq_refl).
  destruct output_data as [out|]; cbn [option_map targets].
  - cbn [tensor_index]. now rewrite (Hblock out (Hout out eq_refl)).
  - reflexivity.
Qed.

(** X12. On a constructed table the full slice [:] returns all the given
    inputs and all the given outputs (the inputs twice, without outputs). *)
Theorem slice_all inputs (output_data : option (ndarray sample)) t :
  __init__ (Some inputs) output_data = Ok t ->
  __getitem__index (SliceIndex (mkSlice None None None)) t
  = (Ok (Rows inputs, Rows (targets inputs output_data)), t).
Proof.
  intros Hinit.
  destruct (init_Ok_inv _ _ _ Hinit) as (inp & [= <-] & -> & Hout).
  assert (Hall : forall r : tensor sample,
            tensor_getslice r (mkSlice None None None) = Ok r).
  { intros r.
    rewrite (tensor_getslice_block r (mkSlice None None None))
      by (left; reflexivity).
    cbn [start stop slice_start slice_stop].
    rewrite Z.sub_0_r. cbn [Z.to_nat skipn]. unfold len.
    rewrite Nat2Z.id, firstn_all. reflexivity. }
  rewrite getitem_index_run. cbn [tensor_index _input_data _output_data].
  unfold from_numpy. rewrite Hall.
  destruct output_data as [out|]; cbn [option_map targets tensor_index].
  - now rewrite Hall.
  - reflexivity.
Qed.

End Slices.

(** ** The further properties at concrete tables *)

Lemma init_succeeds_iff_witness :
  let t := mkMamoDataset rows2 (Some labels2) in
  __init__ (Some rows2) (Some labels2) = Ok t
  /\ Some rows2 = Some (_input_data t)
  /\ Some labels2 = _output_data t.
Proof.
  cbn zeta. split; [reflexivity|].
  exact (proj2 (init_succeeds_iff (Some rows2) (Some labels2)) _ eq_refl).
Defined.

Lemma getitem_answers_iff_witness :
  let t := mkMamoDataset rows3 None in
  __init__ (Some rows3) None = Ok t
  /\ __len__ t = (Ok 3, t)
  /\ - 3 <= -3 < 3
  /\ exists p, fst (__getitem__ (-3) t) = Ok p.
Proof.
  cbn zeta.
  assert (H : - 3 <= -3 < 3) by lia.
  split; [reflexivity|]. split; [reflexivity|]. split; [exact H|].
  exact (proj2 (getitem_answers_iff (Some rows3) None _ 3 (-3) eq_refl eq_refl) H).
Defined.

Lemma getitem_from_the_end_witness :
  let t := mkMamoDataset rows3 None in
  __init__ (Some rows3) None = Ok t
  /\ __len__ t = (Ok 3, t)
  /\ - 3 <= -1 < 0
  /\ __getitem__ (-1) t = __getitem__ (-1 + 3) t.
Proof.
  cbn zeta.
  assert (H : - 3 <= -1 < 0) by lia.
  split; [reflexivity|]. split; [reflexivity|]. split; [exact H|].
  exact (getitem_from_the_end (Some rows3) None _ 3 (-1) eq_refl eq_refl H).
Defined.

Lemma read_all_round_trip_witness :
  let t := mkMamoDataset rows2 (Some labels2) in
  __init__ (Some rows2) (Some labels2) = Ok t
  /\ read_all t 2 = [Ok ([1; 2], [0]); Ok ([3; 4], [1])]
  /\ fst (__getitem__ 2 t) = Raise IndexError.
Proof.
  cbn zeta. split; [reflexivity|].
  exact (read_all_round_trip rows2 (Some labels2) _ eq_refl).
Defined.

Lemma getitem_raises_only_IndexError_witness :
  - 2 ^ 63 <= 3 < 2 ^ 63
  /\ fst (__getitem__ 3 (mkMamoDataset rows3 None)) = Raise IndexError
  /\ IndexError = IndexError.
Proof.
  assert (H64 : - 2 ^ 63 <= 3 < 2 ^ 63) by lia.
  split; [exact H64|]. split; [reflexivity|].
  exact (getitem_raises_only_IndexError
           (mkMamoDataset rows3 None) 3 IndexError H64 eq_refl).
Defined.

Lemma getitem_pair_aligned_witness :
  let t := mkMamoDataset rows2 (Some labels2) in
  __init__ (Some rows2) (Some labels2) = Ok t
  /\ fst (__getitem__ (-1) t) = Ok ([3; 4], [1])
  /\ exists k, nth_error rows2 k = Some [3; 4] /\ nth_error labels2 k = Some [1].
Proof.
  cbn zeta. split; [reflexivity|]. split; [reflexivity|].
  exact (getitem_pair_aligned rows2 labels2 _ (-1) [3; 4] [1] eq_refl eq_refl).
Defined.

Lemma input_part_ignores_outputs_witness :
  let t1 := mkMamoDataset rows2 (Some labels2) in
  let t0 := mkMamoDataset rows2 None in
  __init__ (Some rows2) (Some labels2) = Ok t1
  /\ __init__ (Some rows2) None = Ok t0
  /\ input_part (fst (__getitem__ 1 t1)) = input_part (fst (__getitem__ 1 t0)).
Proof.
  cbn zeta. split; [reflexivity|]. split; [reflexivity|].
  exact (input_part_ignores_outputs rows2 labels2 _ _ 1 eq_refl eq_refl).
Defined.

Lemma slice_step_not_positive_witness :
  let t := mkMamoDataset rows3 None in
  step (mkSlice None None (Some (-1))) = Some (-1)
  /\ -1 <= 0
  /\ exists msg,
       __getitem__index (SliceIndex (mkSlice None None (Some (-1)))) t
       = (Raise (ValueError msg), t).
Proof.
  cbn zeta.
  assert (H : -1 <= 0) by lia.
  split; [reflexivity|]. split; [exact H|].
  exact (slice_step_not_positive (mkMamoDataset rows3 None)
           (mkSlice None None (Some (-1))) (-1) eq_refl H).
Defined.

Lemma slice_always_answers_witness :
  let t := mkMamoDataset rows2 (Some labels2) in
  let s := mkSlice (Some (-5)) (Some 10) (Some 2) in
  __init__ (Some rows2) (Some labels2) = Ok t
  /\ (forall k, step s = Some k -> 0 < k <= Z.max 1 (len (_input_data t)))
  /\ exists xs ys,
       __getitem__index (SliceIndex s) t = (Ok (Rows xs, Rows ys), t)
       /\ List.length xs = List.length ys
       /\ (List.length xs <= List.length (_input_data t))%nat.
Proof.
  cbn zeta.
  assert (H : forall k, step (mkSlice (Some (-5)) (Some 10) (Some 2)) = Some k
                        -> 0 < k <= Z.max 1 (len (_input_data
                                   (mkMamoDataset rows2 (Some labels2))))).
  { intros k [= <-]. cbn. lia. }
  split; [reflexivity|]. split; [exact H|].
  exact (slice_always_answers (Some rows2) (Some labels2) _ _ eq_refl H).
Defined.

Lemma slice_rows_are_lookups_witness :
  let t := mkMamoDataset rows2 (Some labels2) in
  let s := mkSlice (Some 1) None None in
  __init__ (Some rows2) (Some labels2) = Ok t
  /\ __getitem__index (SliceIndex s) t = (Ok (Rows [[3; 4]], Rows [[1]]), t)
  /\ exists i,
       0 <= i < len (_input_data t)
       /\ fst (__getitem__ i t) = Ok ([3; 4], [1]).
Proof.
  cbn zeta. split; [reflexivity|]. split; [reflexivity|].
  exact (slice_rows_are_lookups (Some rows2) (Some labels2) _
           (mkSlice (Some 1) None None) [[3; 4]] [[1]] 0%nat [3; 4] [1]
           eq_refl eq_refl eq_refl eq_refl).
Defined.

Lemma slice_block_witness :
  let t := mkMamoDataset rows3 None in
  __init__ (Some rows3) None = Ok t
  /\ 0 <= 1 <= 2 /\ 2 <= len rows3
  /\ __getitem__index (SliceIndex (mkSlice (Some 1) (Some 2) None)) t
     = (Ok (Rows [[3; 4]], Rows [[3; 4]]), t).
Proof.
  cbn zeta.
  assert (H1 : 0 <= 1 <= 2) by lia.
  assert (H2 : 2 <= len rows3) by (cbn; lia).
  split; [reflexivity|]. split; [exact H1|]. split; [exact H2|].
  exact (slice_block rows3 None _ 1 2 eq_refl H1 H2).
Defined.

Lemma slice_all_witness :
  let t := mkMamoDataset rows2 (Some labels2) in
  __init__ (Some rows2) (Some labels2) = Ok t
  /\ __getitem__index (SliceIndex (mkSlice None None None)) t
     = (Ok (Rows rows2, Rows labels2), t).
Proof.
  cbn zeta. split; [reflexivity|].
  exact (slice_all rows2 (Some labels2) _ eq_refl).
Defined.
